(** * nasa_api: the asteroid feed pipeline of [main.py]

    A shallow embedding of the functions of [main.py] - [get_response],
    [transform_data], [make_dict] and the query text of [get_information] -
    together with the pandas, Python and SQL behaviour those functions rely
    on, and the properties of the pipeline proved over it. *)

From Stdlib Require Import ZArith List String Ascii Bool Lia Floats.
Import ListNotations.

Set Warnings "-register-all,-inexact-float".

Local Open Scope string_scope.
Local Open Scope list_scope.

(** ** Python values, exceptions and the error monad *)

(** The objects [json.loads] builds: [None], booleans, integers, floats
    (binary64), strings, lists, and dicts in insertion order. *)
Inductive value : Type :=
| VNone
| VBool (b : bool)
| VInt (z : Z)
| VFloat (f : float)
| VStr (s : string)
| VList (l : list value)
| VDict (d : list (string * value)).

(** The built-in exceptions the modelled statements can raise.  [KeyError]
    carries the missing key (for a column selection, the first missing
    label). *)
Inductive exn : Type :=
| KeyError (key : string)
| IndexError
| TypeError
| ValueError
| OverflowError
| AttributeError.

(** The class name of an exception, as [type(e).__name__] gives it. *)
Definition exn_name (e : exn) : string :=
  match e with
  | KeyError _ => "KeyError"
  | IndexError => "IndexError"
  | TypeError => "TypeError"
  | ValueError => "ValueError"
  | OverflowError => "OverflowError"
  | AttributeError => "AttributeError"
  end.

(** A computation either raises ([inl]) or returns ([inr]). *)
Definition result (A : Type) : Type := (exn + A)%type.

Definition ret {A} (a : A) : result A := inr a.
Definition raise {A} (e : exn) : result A := inl e.
Definition bind {A B} (c : result A) (k : A -> result B) : result B :=
  match c with
  | inl e => inl e
  | inr a => k a
  end.

Notation "x <- c ;; k" := (bind c (fun x => k))
  (at level 61, c at next level, right associativity).

(** [[f(x) for x in l]], stopping at the first element on which [f] raises. *)
Fixpoint mapM {A B} (f : A -> result B) (l : list A) : result (list B) :=
  match l with
  | [] => ret []
  | x :: xs => y <- f x ;; ys <- mapM f xs ;; ret (y :: ys)
  end.

(** Lookup in an insertion-ordered dict. *)
Fixpoint assoc {A} (k : string) (d : list (string * A)) : option A :=
  match d with
  | [] => None
  | (k', v) :: rest => if String.eqb k k' then Some v else assoc k rest
  end.

(** [x[key]] for a string key: a dict answers or raises [KeyError]; a list
    or a string wants integer indices and the other objects are not
    subscriptable, all of which is a [TypeError]. *)
Definition getitem (x : value) (key : string) : result value :=
  match x with
  | VDict d =>
      match assoc key d with
      | Some v => ret v
      | None => raise (KeyError key)
      end
  | _ => raise TypeError
  end.

(** ** The feed *)

(** A close-approach event, with the three entries [transform_data] keeps:
    [["relative_velocity"]["kilometers_per_second"]],
    [["miss_distance"]["kilometers"]] and [["close_approach_date"]].  The
    other entries of an event (other units, orbiting body) end in columns
    that the selection of lines 51-61 drops. *)
Module Cpd.
Record t : Type := mk {
  relative_velocity_kilometers_per_second : value;
  miss_distance_kilometers : value;
  close_approach_date : value
}.
End Cpd.

(** An asteroid of the feed, with the five entries [json_normalize] is asked
    for.  What stands under [estimated_diameter] is kept as an arbitrary
    object: [transform_data] indexes it itself (lines 64-69). *)
Module Neo.
Record t : Type := mk {
  id : value;
  name : value;
  is_potentially_hazardous_asteroid : value;
  estimated_diameter : value;
  close_approach_data : list Cpd.t
}.
End Neo.

(** [resp.json()["near_earth_objects"]]: a dict from date to the asteroids of
    that date.  A dict iterates in insertion order and [report[day]] is the
    entry stored under [day], so the loop of line 44 sees the entries in
    order. *)
Definition RawFeed : Type := list (string * list Neo.t).

(** ** pandas frames *)

(** A frame, column by column: each column is a label and a series of
    cells, all series of one length. *)
Definition Series : Type := list value.
Definition DataFrame : Type := list (string * Series).

Definition nrows (df : DataFrame) : nat :=
  match df with
  | [] => 0
  | (_, s) :: _ => List.length s
  end.

Definition NaN : value := VFloat nan.

(** [df[[c1, ..., cn]]]: the listed columns in the listed order; a label that
    is no column raises [KeyError]. *)
Definition select (labels : list string) (df : DataFrame) : result DataFrame :=
  mapM (fun c =>
          match assoc c df with
          | Some s => ret (c, s)
          | None => raise (KeyError c)
          end) labels.

(** [df[c]]. *)
Definition column (c : string) (df : DataFrame) : result Series :=
  match assoc c df with
  | Some s => ret s
  | None => raise (KeyError c)
  end.

(** [df[c] = s]: replaces the column [c], or adds it as the last one. *)
Fixpoint setitem (c : string) (s : Series) (df : DataFrame) : DataFrame :=
  match df with
  | [] => [(c, s)]
  | (c', s') :: rest =>
      if String.eqb c c' then (c, s) :: rest else (c', s') :: setitem c s rest
  end.

Definition mem (c : string) (l : list string) : bool :=
  existsb (String.eqb c) l.

Definition column_or_nan (c : string) (df : DataFrame) : Series :=
  match assoc c df with
  | Some s => s
  | None => repeat NaN (nrows df)
  end.

(** [pd.concat([a, b], ignore_index=True)]: the rows of [a] then those of
    [b], over the union of the columns ([a]'s first), a cell of a column the
    frame does not have being NaN. *)
Definition concat (a b : DataFrame) : DataFrame :=
  let labels :=
    map fst a ++ filter (fun c => negb (mem c (map fst a))) (map fst b) in
  map (fun c => (c, column_or_nan c a ++ column_or_nan c b)) labels.

(** [df.rename(columns=m)]. *)
Definition rename (m : list (string * string)) (df : DataFrame) : DataFrame :=
  map (fun '(c, s) =>
         match assoc c m with
         | Some c' => (c', s)
         | None => (c, s)
         end) df.

(** [pd.json_normalize(data, record_path="close_approach_data",
    meta=["id", "name", "is_potentially_hazardous_asteroid",
    "estimated_diameter"], record_prefix="cpd.")].

    pandas returns [DataFrame()] - no column at all - for an empty list.
    Otherwise it collects the events of every asteroid into [records], builds
    [DataFrame(records)] (which has no column when there is no record),
    prefixes its columns, and adds each meta column as the asteroid's value
    repeated once per event of that asteroid. *)
Definition json_normalize (data : list Neo.t) : DataFrame :=
  match data with
  | [] => []
  | _ :: _ =>
      let records := flat_map Neo.close_approach_data data in
      let meta (f : Neo.t -> value) : Series :=
        flat_map (fun o => repeat (f o) (List.length (Neo.close_approach_data o)))
                 data in
      match records with
      | [] => []
      | _ :: _ =>
          [("cpd.close_approach_date", map Cpd.close_approach_date records);
           ("cpd.relative_velocity.kilometers_per_second",
            map Cpd.relative_velocity_kilometers_per_second records);
           ("cpd.miss_distance.kilometers",
            map Cpd.miss_distance_kilometers records)]
      end
      ++ [("id", meta Neo.id);
          ("name", meta Neo.name);
          ("is_potentially_hazardous_asteroid",
           meta Neo.is_potentially_hazardous_asteroid);
          ("estimated_diameter", meta Neo.estimated_diameter)]
  end.

(** ** transform_data *)

(** The seven columns of lines 33-41 and 52-60. *)
Definition normalized_columns : list string :=
  ["id";
   "name";
   "is_potentially_hazardous_asteroid";
   "estimated_diameter";
   "cpd.relative_velocity.kilometers_per_second";
   "cpd.miss_distance.kilometers";
   "cpd.close_approach_date"].

(** The eight columns of lines 72-81. *)
Definition flat_columns : list string :=
  ["id";
   "name";
   "is_potentially_hazardous_asteroid";
   "estimated_diameter_min_km";
   "estimated_diameter_max_km";
   "cpd.relative_velocity.kilometers_per_second";
   "cpd.miss_distance.kilometers";
   "cpd.close_approach_date"].

(** The loop of lines 44-62, [df_ovr] being the frame built so far. *)
Fixpoint transform_days (days : RawFeed) (df_ovr : DataFrame)
  : result DataFrame :=
  match days with
  | [] => ret df_ovr
  | (_, asteroids) :: rest =>
      df <- select normalized_columns (json_normalize asteroids) ;;
      transform_days rest (concat df_ovr df)
  end.

(** [lambda x: x["kilometers"][extreme]] of lines 65 and 68. *)
Definition kilometers (extreme : string) (x : value) : result value :=
  k <- getitem x "kilometers" ;; getitem k extreme.

(** [transform_data(report)], lines 29-92.  The file [report_NASA.csv]
    written at line 91 is no part of the returned frame and is left out. *)
Definition transform_data (report : RawFeed) : result DataFrame :=
  let df_ovr := map (fun c => (c, [])) normalized_columns in
  df_ovr <- transform_days report df_ovr ;;
  diameters <- column "estimated_diameter" df_ovr ;;
  mins <- mapM (kilometers "estimated_diameter_min") diameters ;;
  let df_ovr := setitem "estimated_diameter_min_km" mins df_ovr in
  diameters <- column "estimated_diameter" df_ovr ;;
  maxs <- mapM (kilometers "estimated_diameter_max") diameters ;;
  let df_ovr := setitem "estimated_diameter_max_km" maxs df_ovr in
  df_ovr <- select flat_columns df_ovr ;;
  ret (rename
         [("cpd.relative_velocity.kilometers_per_second",
           "relative_velocity_km_sec");
          ("cpd.miss_distance.kilometers", "miss_distance_km");
          ("cpd.close_approach_date", "searching_date")]
         df_ovr).

(** ** make_dict *)

(** A row of the frame [make_dict] reads, its cells typed as the columns of
    the table of [table_init] are: the two cells that line 99 passes through
    [astype(float)] hold the float that conversion yields. *)
Module Row.
Record t : Type := mk {
  id : string;
  name : string;
  is_potentially_hazardous_asteroid : bool;
  estimated_diameter_min_km : float;
  estimated_diameter_max_km : float;
  relative_velocity_km_sec : float;
  miss_distance_km : float;
  searching_date : string
}.
End Row.

Definition fmax (x y : float) : float := if PrimFloat.ltb x y then y else x.
Definition fmin (x y : float) : float := if PrimFloat.ltb y x then y else x.

(** [Series.max()] and [Series.min()] of a float column: NaN cells are
    skipped, and the result is NaN when no cell is left. *)
Definition series_max (s : list float) : float :=
  match filter (fun x => negb (is_nan x)) s with
  | [] => nan
  | x :: xs => fold_left fmax xs x
  end.

Definition series_min (s : list float) : float :=
  match filter (fun x => negb (is_nan x)) s with
  | [] => nan
  | x :: xs => fold_left fmin xs x
  end.

(** The integer nearest to [m * 2^e], a tie going to the even one. *)
Definition round_half_even (m e : Z) : Z :=
  if (0 <=? e)%Z then (m * 2 ^ e)%Z
  else
    let d := (2 ^ (- e))%Z in
    let q := (m / d)%Z in
    match (2 * (m mod d) ?= d)%Z with
    | Lt => q
    | Gt => (q + 1)%Z
    | Eq => if Z.even q then q else (q + 1)%Z
    end.

(** [round(x)] of a float: the nearest integer, ties to even;
    [OverflowError] on an infinity and [ValueError] on NaN. *)
Definition py_round (x : float) : result Z :=
  match Prim2SF x with
  | S754_zero _ => ret 0%Z
  | S754_infinity _ => raise OverflowError
  | S754_nan => raise ValueError
  | S754_finite s m e =>
      let n := round_half_even (Z.pos m) e in
      ret (if s then (- n)%Z else n)
  end.

Record report_dict : Type := {
  potentially_hazardous_count : Z;
  name_with_max_estimated_diam : string;
  min_collision_hours : Z
}.

(** [df[mask].iloc[0]]: the first selected row, [IndexError] when there is
    none. *)
Definition iloc0 (rows : list Row.t) : result Row.t :=
  match rows with
  | [] => raise IndexError
  | r :: _ => ret r
  end.

(** Line 99 without its [.min()]: the column of quotients, in IEEE
    arithmetic. *)
Definition collision_column (divisor : float) (df : list Row.t) : list float :=
  map (fun r =>
         (Row.miss_distance_km r / Row.relative_velocity_km_sec r / divisor)%float)
      df.

(** [make_dict(df)], lines 95-106. *)
Definition make_dict (df : list Row.t) : result report_dict :=
  let hazard_count :=
    Z.of_nat
      (List.length
         (filter (fun r => Bool.eqb (Row.is_potentially_hazardous_asteroid r) true)
                 df)) in
  let largest := series_max (map Row.estimated_diameter_max_km df) in
  r <- iloc0 (filter (fun r => PrimFloat.eqb (Row.estimated_diameter_max_km r)
                                             largest) df) ;;
  let max_name := Row.name r in
  let min_hours := series_min (collision_column 360 df) in
  hours <- py_round min_hours ;;
  ret {| potentially_hazardous_count := hazard_count;
         name_with_max_estimated_diam := max_name;
         min_collision_hours := hours |}.

(** The hours as the specification words them, with 3600 seconds to the
    hour, to set beside line 99. *)
Definition spec_min_collision_hours (df : list Row.t) : result Z :=
  py_round (series_min (collision_column 3600 df)).

(** ** get_response and the head of the main block *)

(** What [requests.get] hands back: the status and the decoded body, a dict
    whose entry [near_earth_objects] is the feed. *)
Record Response : Type := {
  status_code : Z;
  json : list (string * RawFeed)
}.

(** [get_response()], lines 12-26, on the response its request receives:
    the lines printed and the value returned, [None] standing for Python's
    [None] that a function returns when it runs off its end. *)
Definition get_response (resp : Response)
  : list string * result (option RawFeed) :=
  if (status_code resp =? 200)%Z then
    ([], match assoc "near_earth_objects" (json resp) with
         | Some feed => ret (Some feed)
         | None => raise (KeyError "near_earth_objects")
         end)
  else (["Error!"], ret None).

(** Lines 159-160: [response = get_response()], then
    [df = transform_data(response)], whose first statement [report.keys()]
    raises [AttributeError] on [None]. *)
Definition main_head (resp : Response) : list string * result DataFrame :=
  let (printed, response) := get_response resp in
  (printed,
   response <- response ;;
   match response with
   | None => raise AttributeError
   | Some report => transform_data report
   end).

(** ** get_information *)

(** The text that line 152 hands to [cur.execute]. *)
Definition get_information_query (searching_date miss_distance_km : string)
  : string :=
  "SELECT name FROM asteroids WHERE searching_date = '" ++ searching_date
  ++ "' AND miss_distance_km = " ++ miss_distance_km.

Definition quote : ascii := "'"%char.

(** An SQL string constant read from just after its opening quote: it runs
    to the first quote that is not doubled, two quotes in a row standing for
    one quote of the constant.  [Some (contents, rest of the text)], or
    [None] when the text ends inside the constant. *)
Fixpoint string_constant_body (text : string) : option (string * string) :=
  match text with
  | EmptyString => None
  | String c rest =>
      if Ascii.eqb c quote then
        match rest with
        | String c' rest' =>
            if Ascii.eqb c' quote then
              match string_constant_body rest' with
              | Some (contents, after) => Some (String quote contents, after)
              | None => None
              end
            else Some (EmptyString, rest)
        | EmptyString => Some (EmptyString, rest)
        end
      else
        match string_constant_body rest with
        | Some (contents, after) => Some (String c contents, after)
        | None => None
        end
  end.

(** The first string constant of a statement. *)
Fixpoint first_string_constant (text : string) : option (string * string) :=
  match text with
  | EmptyString => None
  | String c rest =>
      if Ascii.eqb c quote then string_constant_body rest
      else first_string_constant rest
  end.

(** ** The flattener as the specification words it *)

(** The (asteroid, event) pairs of a date, in source order. *)
Definition pairs_of (asteroids : list Neo.t) : list (Neo.t * Cpd.t) :=
  flat_map (fun o => map (pair o) (Neo.close_approach_data o)) asteroids.

(** The (asteroid, event) pairs of a feed: date order, then source order. *)
Definition flat_rows (report : RawFeed) : list (Neo.t * Cpd.t) :=
  flat_map (fun day => pairs_of (snd day)) report.

(** The sum, over all asteroids of all dates, of their numbers of events. *)
Definition event_count (report : RawFeed) : nat :=
  list_sum
    (map (fun o => List.length (Neo.close_approach_data o))
         (flat_map snd report)).

(** The frame of the seven columns of [normalized_columns] whose rows are
    the given pairs. *)
Definition normalized_frame (ps : list (Neo.t * Cpd.t)) : DataFrame :=
  [("id", map (fun p => Neo.id (fst p)) ps);
   ("name", map (fun p => Neo.name (fst p)) ps);
   ("is_potentially_hazardous_asteroid",
    map (fun p => Neo.is_potentially_hazardous_asteroid (fst p)) ps);
   ("estimated_diameter", map (fun p => Neo.estimated_diameter (fst p)) ps);
   ("cpd.relative_velocity.kilometers_per_second",
    map (fun p => Cpd.relative_velocity_kilometers_per_second (snd p)) ps);
   ("cpd.miss_distance.kilometers",
    map (fun p => Cpd.miss_distance_kilometers (snd p)) ps);
   ("cpd.close_approach_date", map (fun p => Cpd.close_approach_date (snd p)) ps)].

(** The frame of the eight columns [transform_data] returns whose rows are
    the given pairs, with the given cells in the two diameter columns. *)
Definition flat_frame (ps : list (Neo.t * Cpd.t)) (mins maxs : Series)
  : DataFrame :=
  [("id", map (fun p => Neo.id (fst p)) ps);
   ("name", map (fun p => Neo.name (fst p)) ps);
   ("is_potentially_hazardous_asteroid",
    map (fun p => Neo.is_potentially_hazardous_asteroid (fst p)) ps);
   ("estimated_diameter_min_km", mins);
   ("estimated_diameter_max_km", maxs);
   ("relative_velocity_km_sec",
    map (fun p => Cpd.relative_velocity_kilometers_per_second (snd p)) ps);
   ("miss_distance_km", map (fun p => Cpd.miss_distance_kilometers (snd p)) ps);
   ("searching_date", map (fun p => Cpd.close_approach_date (snd p)) ps)].

(** The diameter extreme of the asteroid of a pair. *)
Definition extreme_of (extreme : string) (p : Neo.t * Cpd.t) : result value :=
  kilometers extreme (Neo.estimated_diameter (fst p)).

(** ** Sample data *)

(** An estimated-diameter structure with its kilometer entry, and one with
    meters only. *)
Definition diameter_km (lo hi : float) : value :=
  VDict [("kilometers",
          VDict [("estimated_diameter_min", VFloat lo);
                 ("estimated_diameter_max", VFloat hi)])].

Definition diameter_meters_only : value :=
  VDict [("meters",
          VDict [("estimated_diameter_min", VFloat 250);
                 ("estimated_diameter_max", VFloat 500)])].

Definition sample_event : Cpd.t :=
  Cpd.mk (VStr "10.0") (VStr "1000.0") (VStr "2023-01-01").

(** A well-formed asteroid with one event. *)
Definition apophis : Neo.t :=
  Neo.mk (VStr "2099942") (VStr "Apophis") (VBool true)
         (diameter_km 0.25 0.5) [sample_event].


Definition bennu_meters_no_event : Neo.t :=
  Neo.mk (VStr "2101955") (VStr "Bennu") (VBool false)
         diameter_meters_only [].

(** The two rows of the specification's scenario, the cells it leaves open
    being arguments, and a row with a zero velocity. *)
Definition row_apophis (id : string) (diameter_min : float) : Row.t :=
  Row.mk id "Apophis" true diameter_min 0.5 10 1000 "2023-01-01".

Definition row_bennu (id : string) (diameter_min : float) : Row.t :=
  Row.mk id "Bennu" false diameter_min 0.3 5 2000 "2023-01-02".

Definition row_at_rest : Row.t :=
  Row.mk "2101955" "Bennu" false 0.25 0.3 0 2000 "2023-01-02".

(** A row that is one hour away: 3600 km at 1 km/s. *)
Definition row_one_hour : Row.t :=
  Row.mk "2101955" "Bennu" false 0.25 0.5 1 3600 "2023-01-02".

(** A float that is an infinity or NaN. *)
Definition infinite_or_nan (x : float) : Prop :=
  Prim2SF x = S754_nan \/ exists s, Prim2SF x = S754_infinity s.

(** Whether a string holds a quote, and the string of [k] quotes. *)
Fixpoint has_quote (s : string) : bool :=
  match s with
  | EmptyString => false
  | String c rest => Ascii.eqb c quote || has_quote rest
  end.

Fixpoint quotes (k : nat) : string :=
  match k with
  | O => EmptyString
  | S k' => String quote (quotes k')
  end.

(** Case analysis for the order of [SFcompare]: signs first, then the
    exponents and the mantissas. *)
Ltac sf_order :=
  repeat match goal with
         | s : bool |- _ => destruct s
         end;
  cbn [xorb CompOpp] in *;
  try congruence;
  change (Pos.compare_cont Eq) with Pos.compare in *;
  repeat match goal with
         | H : context [(?a ?= ?b)%Z] |- _ => destruct (Z.compare_spec a b)
         | |- context [(?a ?= ?b)%Z] => destruct (Z.compare_spec a b)
         | H : context [(?a ?= ?b)%positive] |- _ =>
             destruct (Pos.compare_spec a b)
         | |- context [(?a ?= ?b)%positive] => destruct (Pos.compare_spec a b)
         end;
  cbn [CompOpp] in *; subst; try congruence; try lia.

(** * Properties *)

(** ** The error monad *)



Lemma mapM_map {A B C} (g : A -> B) (f : B -> result C) (l : list A) :
  mapM f (map g l) = mapM (fun x => f (g x)) l.
Proof.
  induction l as [|x xs IH]; simpl; [reflexivity | now rewrite IH].
Qed.


(** ** json_normalize and the loop over the dates *)

Lemma pairs_of_events (asteroids : list Neo.t) :
  map snd (pairs_of asteroids) = flat_map Neo.close_approach_data asteroids.
Proof.
  unfold pairs_of. induction asteroids as [|o os IH]; simpl.
  - reflexivity.
  - rewrite map_app, IH, map_map. simpl. now rewrite map_id.
Qed.

Lemma pairs_of_meta (f : Neo.t -> value) (asteroids : list Neo.t) :
  flat_map (fun o => repeat (f o) (List.length (Neo.close_approach_data o)))
           asteroids
  = map (fun p => f (fst p)) (pairs_of asteroids).
Proof.
  unfold pairs_of. induction asteroids as [|o os IH]; simpl.
  - reflexivity.
  - rewrite map_app, IH, map_map. simpl. f_equal.
    induction (Neo.close_approach_data o) as [|ev evs IHev]; simpl;
      [reflexivity | now rewrite IHev].
Qed.

Lemma pairs_of_length (asteroids : list Neo.t) :
  List.length (pairs_of asteroids)
  = list_sum (map (fun o => List.length (Neo.close_approach_data o)) asteroids).
Proof.
  unfold pairs_of. induction asteroids as [|o os IH]; simpl.
  - reflexivity.
  - now rewrite length_app, length_map, IH.
Qed.

Lemma flat_rows_length (report : RawFeed) :
  List.length (flat_rows report) = event_count report.
Proof.
  unfold flat_rows, event_count. induction report as [|[day os] rest IH]; simpl.
  - reflexivity.
  - now rewrite length_app, map_app, list_sum_app, pairs_of_length, IH.
Qed.

(** A date with at least one event: its frame has the seven columns. *)
Lemma select_json_normalize (asteroids : list Neo.t) :
  pairs_of asteroids <> [] ->
  select normalized_columns (json_normalize asteroids)
  = inr (normalized_frame (pairs_of asteroids)).
Proof.
  intros Hne. unfold json_normalize.
  destruct asteroids as [|o os]; [now elim Hne|].
  rewrite !pairs_of_meta, <- pairs_of_events.
  destruct (pairs_of (o :: os)) as [|p ps]; [now elim Hne|].
  unfold normalized_frame. cbn -[map]. rewrite !map_map. reflexivity.
Qed.

(** A date with no event, its list empty or not: the selection of lines
    51-61 finds a column missing. *)
Lemma select_json_normalize_no_event (asteroids : list Neo.t) :
  pairs_of asteroids = [] ->
  exists c, select normalized_columns (json_normalize asteroids)
            = inl (KeyError c).
Proof.
  intros Hnil. unfold json_normalize.
  destruct asteroids as [|o os].
  - now exists "id".
  - rewrite <- pairs_of_events, Hnil. simpl map.
    now exists "cpd.relative_velocity.kilometers_per_second".
Qed.

Lemma concat_normalized_frame (ps qs : list (Neo.t * Cpd.t)) :
  concat (normalized_frame ps) (normalized_frame qs)
  = normalized_frame (ps ++ qs).
Proof.
  unfold normalized_frame. rewrite !map_app. reflexivity.
Qed.

(** The loop either stops at the first date without an event, with a
    [KeyError], or appends the pairs of every date. *)
Lemma transform_days_cases (days : RawFeed) (ps : list (Neo.t * Cpd.t)) :
  (Forall (fun day => pairs_of (snd day) <> []) days /\
   transform_days days (normalized_frame ps)
   = inr (normalized_frame (ps ++ flat_rows days)))
  \/ (Exists (fun day => pairs_of (snd day) = []) days /\
      exists c, transform_days days (normalized_frame ps) = inl (KeyError c)).
Proof.
  revert ps. induction days as [|[day os] rest IH]; intros ps.
  - left. split; [constructor|]. simpl. now rewrite app_nil_r.
  - simpl transform_days.
    assert (Hos : pairs_of os = [] \/ pairs_of os <> [])
      by (destruct (pairs_of os); [left | right]; congruence).
    destruct Hos as [Hos|Hos].
    + right. split; [now left|].
      destruct (select_json_normalize_no_event os Hos) as (c & ->).
      now exists c.
    + rewrite select_json_normalize by exact Hos.
      unfold bind. rewrite concat_normalized_frame.
      destruct (IH (ps ++ pairs_of os)) as [[Hall Hok]|[Hex Hko]].
      * left. split.
        -- constructor; [exact Hos | exact Hall].
        -- rewrite Hok. unfold flat_rows. simpl. now rewrite <- app_assoc.
      * right. split; [now right | exact Hko].
Qed.

(** ** transform_data *)

(** Once the loop has built its frame, what is left of [transform_data] is
    the two passes over the diameters. *)
Lemma transform_data_after_loop (report : RawFeed) (ps : list (Neo.t * Cpd.t)) :
  transform_days report (normalized_frame []) = inr (normalized_frame ps) ->
  transform_data report
  = (mins <- mapM (extreme_of "estimated_diameter_min") ps ;;
     maxs <- mapM (extreme_of "estimated_diameter_max") ps ;;
     ret (flat_frame ps mins maxs)).
Proof.
  intros Hloop. unfold transform_data.
  change (map (fun c => (c, [])) normalized_columns)
    with (normalized_frame []).
  rewrite Hloop. cbn -[mapM map]. rewrite mapM_map.
  change (fun x => kilometers "estimated_diameter_min"
                     (Neo.estimated_diameter (fst x)))
    with (extreme_of "estimated_diameter_min").
  destruct (mapM (extreme_of "estimated_diameter_min") ps) as [e|mins];
    [reflexivity|].
  cbn -[mapM map]. rewrite mapM_map.
  change (fun x => kilometers "estimated_diameter_max"
                     (Neo.estimated_diameter (fst x)))
    with (extreme_of "estimated_diameter_max").
  destruct (mapM (extreme_of "estimated_diameter_max") ps) as [e|maxs];
    reflexivity.
Qed.

Lemma transform_data_loop_raises (report : RawFeed) (c : string) :
  transform_days report (normalized_frame []) = inl (KeyError c) ->
  transform_data report = inl (KeyError c).
Proof.
  intros Hloop. unfold transform_data.
  change (map (fun c => (c, [])) normalized_columns)
    with (normalized_frame []).
  now rewrite Hloop.
Qed.

Lemma in_pairs_of (asteroids : list Neo.t) (o : Neo.t) (ev : Cpd.t) :
  In (o, ev) (pairs_of asteroids)
  <-> In o asteroids /\ In ev (Neo.close_approach_data o).
Proof.
  unfold pairs_of. rewrite in_flat_map. split.
  - intros (o' & Ho' & Hin). apply in_map_iff in Hin as (ev' & Heq & Hev).
    injection Heq as <- <-. now split.
  - intros (Ho & Hev). exists o. split; [exact Ho|]. now apply in_map.
Qed.


Lemma pairs_of_nil (asteroids : list Neo.t) :
  pairs_of asteroids = []
  <-> forall o, In o asteroids -> Neo.close_approach_data o = [].
Proof.
  split.
  - intros Hnil o Ho. destruct (Neo.close_approach_data o) as [|ev evs] eqn:He;
      [reflexivity|].
    assert (Hin : In (o, ev) (pairs_of asteroids))
      by (apply in_pairs_of; split; [exact Ho | rewrite He; now left]).
    rewrite Hnil in Hin. contradiction.
  - intros Hall. destruct (pairs_of asteroids) as [|[o ev] ps] eqn:Hp;
      [reflexivity|].
    assert (Hin : In (o, ev) (pairs_of asteroids)) by (rewrite Hp; now left).
    apply in_pairs_of in Hin as (Ho & Hev). rewrite (Hall o Ho) in Hev.
    contradiction.
Qed.


Example transform_data_two_dates :
  transform_data [("2023-01-01", [apophis; bennu_meters_no_event]);
                  ("2023-01-02", [apophis])]
  = inr [("id", [VStr "2099942"; VStr "2099942"]);
         ("name", [VStr "Apophis"; VStr "Apophis"]);
         ("is_potentially_hazardous_asteroid", [VBool true; VBool true]);
         ("estimated_diameter_min_km", [VFloat 0.25; VFloat 0.25]);
         ("estimated_diameter_max_km", [VFloat 0.5; VFloat 0.5]);
         ("relative_velocity_km_sec", [VStr "10.0"; VStr "10.0"]);
         ("miss_distance_km", [VStr "1000.0"; VStr "1000.0"]);
         ("searching_date", [VStr "2023-01-01"; VStr "2023-01-01"])].
Proof. reflexivity. Qed.

(** The empty feed goes through: [df_ovr] has its columns from line 32 on. *)
Example transform_data_empty_feed :
  transform_data [] = inr (flat_frame [] [] []).
Proof. reflexivity. Qed.







(** C7.  A date with an empty list stops [transform_data]: [json_normalize]
    gives a frame without columns for it, and the selection of lines 51-61
    raises [KeyError]. *)
Theorem transform_data_empty_date (report : RawFeed) (day : string) :
  In (day, []) report -> exists c, transform_data report = inl (KeyError c).
Proof.
  intros Hday.
  destruct (transform_days_cases report []) as [[Hall _]|[_ (c & Hko)]].
  - rewrite Forall_forall in Hall. now elim (Hall _ Hday).
  - exists c. now apply transform_data_loop_raises.
Qed.

Lemma transform_data_empty_date_witness :
  exists c,
    transform_data [("2023-01-01", [apophis]); ("2023-01-02", [])]
    = inl (KeyError c).
Proof.
  apply (transform_data_empty_date
           [("2023-01-01", [apophis]); ("2023-01-02", [])] "2023-01-02").
  right. now left.
Defined.

(** ** make_dict *)

Example py_round_ties :
  map py_round [0.5; 1.5; 2.5; -0.5; -1.5; 0.75; 10]%float
  = map inr [0; 2; 2; 0; -2; 1; 10]%Z.
Proof. reflexivity. Qed.

Example py_round_not_finite :
  map py_round [infinity; neg_infinity; nan]
  = [inl OverflowError; inl OverflowError; inl ValueError].
Proof. reflexivity. Qed.

(** C4.  On the two rows of the scenario, whatever their ids and minimal
    diameters, [make_dict] returns one hazardous row, the name Apophis and
    zero hours. *)
Theorem make_dict_scenario (id_a id_b : string) (min_a min_b : float) :
  make_dict [row_apophis id_a min_a; row_bennu id_b min_b]
  = inr {| potentially_hazardous_count := 1;
           name_with_max_estimated_diam := "Apophis";
           min_collision_hours := 0 |}.
Proof. reflexivity. Qed.

(** C3, as amended.  On the empty row-set [make_dict] fails with
    [IndexError]: the largest diameter of no row is NaN, no row equals it,
    and [iloc[0]] of line 98 has nothing to return. *)
Theorem make_dict_empty : make_dict [] = inl IndexError.
Proof. reflexivity. Qed.

(** C3, as the specification states it, fails: the exception of the empty
    row-set is not an [EmptyInputError]. *)
Lemma make_dict_empty_input_error_counterexample :
  ~ (exists e, make_dict [] = inl e /\ exn_name e = "EmptyInputError").
Proof.
  intros (e & H & Hname). injection H as <-. discriminate.
Qed.

(** C2.  Line 99 divides the seconds by 360: a row 3600 km away at 1 km/s
    is reported ten hours away, where the hours of the specification, with
    3600, are one. *)
Theorem make_dict_hours_divisor :
  make_dict [row_one_hour]
  = inr {| potentially_hazardous_count := 0;
           name_with_max_estimated_diam := "Bennu";
           min_collision_hours := 10 |} /\
  spec_min_collision_hours [row_one_hour] = inr 1%Z.
Proof. split; reflexivity. Qed.

(** *** Division by a zero velocity *)

Lemma eqb_zero (x : float) :
  (x =? 0)%float = true -> exists s, Prim2SF x = S754_zero s.
Proof.
  rewrite eqb_spec. change (Prim2SF 0) with (S754_zero false).
  destruct (Prim2SF x) as [s|[]| |[] m e]; try discriminate. now exists s.
Qed.

Lemma div_by_zero (x y : float) (s : bool) :
  Prim2SF y = S754_zero s -> infinite_or_nan (x / y).
Proof.
  intros Hy. unfold infinite_or_nan. rewrite div_spec, Hy.
  unfold SF64div, SFdiv. destruct (Prim2SF x); eauto.
Qed.

Lemma div_360_infinite_or_nan (x : float) :
  infinite_or_nan x -> infinite_or_nan (x / 360).
Proof.
  unfold infinite_or_nan. rewrite div_spec.
  intros [->|(s & ->)]; [now left | right].
  now exists (xorb s false).
Qed.

Lemma py_round_infinite_or_nan (x : float) :
  infinite_or_nan x -> exists e, py_round x = inl e.
Proof.
  unfold py_round. intros [->|(s & ->)]; eauto.
Qed.

Lemma fold_fmin_in (xs : list float) (x : float) :
  In (fold_left fmin xs x) (x :: xs).
Proof.
  revert x. induction xs as [|y ys IH]; intros x; simpl.
  - now left.
  - destruct (IH (fmin x y)) as [H|H]; [|now right; right].
    rewrite <- H. unfold fmin. destruct (y <? x)%float; [right|]; now left.
Qed.

(** The minimum of a column without a finite cell is no finite float. *)
Lemma series_min_infinite_or_nan (s : list float) :
  (forall x, In x s -> infinite_or_nan x) -> infinite_or_nan (series_min s).
Proof.
  intros Hall. unfold series_min.
  destruct (filter (fun x => negb (is_nan x)) s) as [|x xs] eqn:Hf.
  - now left.
  - apply Hall.
    assert (Hin : In (fold_left fmin xs x)
                     (filter (fun x => negb (is_nan x)) s))
      by (rewrite Hf; apply fold_fmin_in).
    now apply filter_In in Hin.
Qed.

Lemma collision_zero_velocity (r : Row.t) :
  (Row.relative_velocity_km_sec r =? 0)%float = true ->
  infinite_or_nan
    (Row.miss_distance_km r / Row.relative_velocity_km_sec r / 360).
Proof.
  intros H. destruct (eqb_zero _ H) as (s & Hs).
  apply div_360_infinite_or_nan. now apply div_by_zero with s.
Qed.

Lemma series_min_in (s : list float) (h : Z) :
  py_round (series_min s) = inr h -> In (series_min s) s.
Proof.
  unfold series_min.
  destruct (filter (fun x => negb (is_nan x)) s) as [|x xs] eqn:Hf.
  - discriminate.
  - intros _.
    assert (Hin : In (fold_left fmin xs x)
                     (filter (fun x => negb (is_nan x)) s))
      by (rewrite Hf; apply fold_fmin_in).
    now apply filter_In in Hin.
Qed.

(** C8, as amended.  For every row-set holding a row with a zero velocity:
    the quotient of that row is an infinity or NaN, as IEEE division has it;
    when [make_dict] fails, it is with [IndexError], [OverflowError] or
    [ValueError] - there is no error for the division; it does fail when
    every row has a zero velocity; and when it returns a report, the hours
    are the rounded quotient of a row whose velocity is not zero. *)
Theorem make_dict_zero_velocity (df : list Row.t) (r : Row.t) :
  In r df ->
  (Row.relative_velocity_km_sec r =? 0)%float = true ->
  infinite_or_nan
    (Row.miss_distance_km r / Row.relative_velocity_km_sec r / 360) /\
  (forall e, make_dict df = inl e ->
             e = IndexError \/ e = OverflowError \/ e = ValueError) /\
  ((forall r', In r' df -> (Row.relative_velocity_km_sec r' =? 0)%float = true) ->
   exists e, make_dict df = inl e) /\
  (forall report, make_dict df = inr report ->
     exists r', In r' df /\
       (Row.relative_velocity_km_sec r' =? 0)%float = false /\
       py_round (Row.miss_distance_km r' / Row.relative_velocity_km_sec r' / 360)
       = inr (min_collision_hours report)).
Proof.
  intros Hr Hzero. split; [now apply collision_zero_velocity|].
  split; [|split].
  - intros e. unfold make_dict.
    destruct (iloc0 _) as [e'|r0] eqn:Hloc; simpl.
    + unfold iloc0 in Hloc. destruct (filter _ df); [|discriminate].
      injection Hloc as <-. intros H. injection H as <-. now left.
    + unfold py_round.
      destruct (Prim2SF _); simpl; intros H; try discriminate;
        injection H as <-; auto.
  - intros Hall. unfold make_dict.
    destruct (iloc0 _) as [e'|r0]; simpl; [now exists e'|].
    destruct (py_round_infinite_or_nan (series_min (collision_column 360 df)))
      as (e & ->); [|now exists e].
    apply series_min_infinite_or_nan. intros x Hx.
    apply in_map_iff in Hx as (r' & <- & Hr').
    apply collision_zero_velocity. now apply Hall.
  - intros report. unfold make_dict.
    destruct (iloc0 _) as [e'|r0]; simpl; [discriminate|].
    destruct (py_round (series_min (collision_column 360 df)))
      as [e|h] eqn:Hround; simpl; [discriminate|].
    intros H. injection H as <-. simpl.
    pose proof (series_min_in _ _ Hround) as Hin.
    apply in_map_iff in Hin as (r' & Hq & Hr').
    exists r'. split; [exact Hr'|]. rewrite Hq. split; [|exact Hround].
    destruct (Row.relative_velocity_km_sec r' =? 0)%float eqn:Hv;
      [|reflexivity].
    destruct (py_round_infinite_or_nan _ (collision_zero_velocity r' Hv))
      as (e & He).
    rewrite Hq, Hround in He. discriminate.
Qed.

Lemma make_dict_zero_velocity_witness :
  infinite_or_nan
    (Row.miss_distance_km row_at_rest
     / Row.relative_velocity_km_sec row_at_rest / 360) /\
  (forall e, make_dict [row_apophis "2099942" 0.25; row_at_rest] = inl e ->
             e = IndexError \/ e = OverflowError \/ e = ValueError) /\
  ((forall r', In r' [row_apophis "2099942" 0.25; row_at_rest] ->
               (Row.relative_velocity_km_sec r' =? 0)%float = true) ->
   exists e, make_dict [row_apophis "2099942" 0.25; row_at_rest] = inl e) /\
  (forall report,
     make_dict [row_apophis "2099942" 0.25; row_at_rest] = inr report ->
     exists r', In r' [row_apophis "2099942" 0.25; row_at_rest] /\
       (Row.relative_velocity_km_sec r' =? 0)%float = false /\
       py_round (Row.miss_distance_km r' / Row.relative_velocity_km_sec r' / 360)
       = inr (min_collision_hours report)).
Proof.
  apply (make_dict_zero_velocity
           [row_apophis "2099942" 0.25; row_at_rest] row_at_rest).
  - right. now left.
  - reflexivity.
Defined.

(** C8, as the specification states it, fails: with a second row that
    moves, the row-set with a zero velocity gets its report. *)
Lemma make_dict_division_by_zero_counterexample :
  (Row.relative_velocity_km_sec row_at_rest =? 0)%float = true /\
  make_dict [row_apophis "2099942" 0.25; row_at_rest]
  = inr {| potentially_hazardous_count := 1;
           name_with_max_estimated_diam := "Apophis";
           min_collision_hours := 0 |}.
Proof. split; reflexivity. Qed.

(** ** get_response *)

(** C6, as amended.  For every response whose status is not 200,
    [get_response] prints its message and returns [None], raising nothing;
    the main block then hands [None] to [transform_data], which raises
    [AttributeError], so that no frame is built from it. *)
Theorem get_response_not_200 (resp : Response) :
  status_code resp <> 200%Z ->
  get_response resp = (["Error!"], inr None) /\
  main_head resp = (["Error!"], inl AttributeError).
Proof.
  intros Hstatus. unfold main_head, get_response.
  destruct (Z.eqb_spec (status_code resp) 200); [contradiction|].
  split; reflexivity.
Qed.

Lemma get_response_not_200_witness :
  get_response {| status_code := 404; json := [] |} = (["Error!"], inr None) /\
  main_head {| status_code := 404; json := [] |}
  = (["Error!"], inl AttributeError).
Proof.
  apply (get_response_not_200 {| status_code := 404; json := [] |}).
  discriminate.
Defined.

(** C6, as the specification states it, fails: on a 404 [get_response]
    prints and returns [None], and raises no [UpstreamServiceError]. *)
Lemma get_response_upstream_error_counterexample :
  get_response {| status_code := 404; json := [] |} = (["Error!"], inr None) /\
  ~ (exists e, snd (get_response {| status_code := 404; json := [] |}) = inl e /\
               exn_name e = "UpstreamServiceError").
Proof.
  split; [reflexivity|]. intros (e & H & _). discriminate.
Qed.

(** ** get_information *)

Local Open Scope string_scope.

Lemma quotes_shift (k : nat) (s : string) :
  quotes k ++ String quote s = String quote (quotes k ++ s).
Proof.
  induction k as [|k IH]; simpl; [reflexivity | now rewrite IH].
Qed.

(** A constant whose text is free of quotes is read back as it stands. *)
Lemma string_constant_body_quote_free (s : string) (c : ascii) (t : string) :
  has_quote s = false -> Ascii.eqb c quote = false ->
  string_constant_body (s ++ String quote (String c t))
  = Some (s, String c t).
Proof.
  intros Hs Hc. induction s as [|a s IH]; simpl.
  - now rewrite Hc.
  - simpl in Hs. apply orb_false_iff in Hs as (Ha & Hs).
    now rewrite Ha, (IH Hs).
Qed.

(** Reading [s] followed by the closing quote never gives back [s] with
    quotes before it, and gives back [s] itself only if [s] has no quote. *)
Lemma string_constant_body_spliced (n : nat) :
  forall (s : string) (k : nat) (c : ascii) (t contents after : string),
    String.length s <= n ->
    Ascii.eqb c quote = false ->
    string_constant_body (s ++ String quote (String c t))
    = Some (contents, after) ->
    contents = quotes k ++ s ->
    k = 0 /\ has_quote s = false.
Proof.
  induction n as [|n IH]; intros s k c t contents after Hlen Hc Hread Heq.
  - destruct s; [|simpl in Hlen; lia].
    simpl in Hread. rewrite Hc in Hread. injection Hread as <- <-.
    destruct k; [now split | discriminate].
  - destruct s as [|a s].
    + simpl in Hread. rewrite Hc in Hread. injection Hread as <- <-.
      destruct k; [now split | discriminate].
    + simpl in Hlen. cbn [append string_constant_body] in Hread.
      destruct (Ascii.eqb_spec a quote) as [->|Ha].
      * destruct s as [|b s].
        -- cbn [append] in Hread. rewrite Ascii.eqb_refl in Hread.
           cbn [string_constant_body] in Hread. rewrite Hc in Hread.
           destruct (string_constant_body t) as [[u v]|]; [|discriminate].
           injection Hread as <- <-. rewrite quotes_shift in Heq.
           injection Heq as Heq. destruct k as [|k]; [discriminate|].
           simpl in Heq. injection Heq as -> _.
           rewrite Ascii.eqb_refl in Hc. discriminate.
        -- cbn [append] in Hread.
           destruct (Ascii.eqb_spec b quote) as [->|Hb].
           ++ destruct (string_constant_body (s ++ String quote (String c t)))
                as [[u v]|] eqn:Hu; [|discriminate].
              injection Hread as <- <-.
              rewrite !quotes_shift in Heq. injection Heq as Heq.
              assert (Hk : S k = 0 /\ has_quote s = false).
              { apply (IH s (S k) c t u v); [simpl in Hlen; lia | exact Hc
                                            | exact Hu | exact Heq]. }
              destruct Hk as [Hk _]. discriminate.
           ++ injection Hread as <- <-. destruct k; discriminate.
      * destruct (string_constant_body (s ++ String quote (String c t)))
          as [[u v]|] eqn:Hu; [|discriminate].
        injection Hread as <- <-.
        destruct k as [|k].
        -- simpl in Heq. injection Heq as Heq.
           destruct (IH s 0 c t u v) as [_ Hs];
             [lia | exact Hc | exact Hu | exact Heq |].
           split; [reflexivity|]. simpl.
           destruct (Ascii.eqb_spec a quote); [contradiction | exact Hs].
        -- simpl in Heq. injection Heq as Heq _. now elim Ha.
Qed.

(** The first string constant of the query is read from the date on. *)
Lemma first_string_constant_query (searching_date miss_distance_km : string) :
  first_string_constant (get_information_query searching_date miss_distance_km)
  = string_constant_body
      (searching_date
       ++ String quote (String " " ("AND miss_distance_km = " ++ miss_distance_km))).
Proof. reflexivity. Qed.

(** A date without a quote is matched as it stands. *)
Lemma get_information_query_quote_free (searching_date miss_distance_km : string) :
  has_quote searching_date = false ->
  first_string_constant (get_information_query searching_date miss_distance_km)
  = Some (searching_date, " AND miss_distance_km = " ++ miss_distance_km).
Proof.
  intros H. rewrite first_string_constant_query.
  now rewrite string_constant_body_quote_free.
Qed.

(** C10.  The query text is the two arguments spliced in as they stand;
    and for every [searching_date] that holds a quote, the string constant
    which the query compares the column [searching_date] with - if the
    text has one at all - is not that argument. *)
Theorem get_information_query_spliced (searching_date miss_distance_km : string) :
  has_quote searching_date = true ->
  get_information_query searching_date miss_distance_km
  = "SELECT name FROM asteroids WHERE searching_date = '" ++ searching_date
    ++ "' AND miss_distance_km = " ++ miss_distance_km /\
  forall contents after,
    first_string_constant
      (get_information_query searching_date miss_distance_km)
    = Some (contents, after) ->
    contents <> searching_date.
Proof.
  intros Hq. split; [reflexivity|].
  intros contents after Hread Heq.
  rewrite first_string_constant_query in Hread.
  destruct (string_constant_body_spliced
              (String.length searching_date) searching_date 0 " "%char
              ("AND miss_distance_km = " ++ miss_distance_km) contents after)
    as [_ Hfree]; [lia | reflexivity | exact Hread | exact Heq |].
  congruence.
Qed.

Lemma get_information_query_spliced_witness :
  get_information_query "2023-01-23' OR '1'='1" "0"
  = "SELECT name FROM asteroids WHERE searching_date = '"
    ++ "2023-01-23' OR '1'='1" ++ "' AND miss_distance_km = " ++ "0" /\
  forall contents after,
    first_string_constant (get_information_query "2023-01-23' OR '1'='1" "0")
    = Some (contents, after) ->
    contents <> "2023-01-23' OR '1'='1".
Proof.
  apply (get_information_query_spliced "2023-01-23' OR '1'='1" "0").
  reflexivity.
Defined.

(** * Further properties of the pipeline *)

Local Open Scope list_scope.

(** ** transform_data on every feed *)

Lemma mapM_length {A B} (f : A -> result B) (l : list A) (ys : list B) :
  mapM f l = inr ys -> List.length ys = List.length l.
Proof.
  revert ys. induction l as [|x xs IH]; simpl; intros ys H.
  - now injection H as <-.
  - destruct (f x) as [e|y]; simpl in H; [discriminate|].
    destruct (mapM f xs) as [e|zs]; simpl in H; [discriminate|].
    injection H as <-. simpl. now rewrite (IH zs).
Qed.

Lemma mapM_app {A B} (f : A -> result B) (l1 l2 : list A) :
  mapM f (l1 ++ l2)
  = (ys1 <- mapM f l1 ;; ys2 <- mapM f l2 ;; ret (ys1 ++ ys2)).
Proof.
  induction l1 as [|x xs IH]; simpl.
  - destruct (mapM f l2); reflexivity.
  - destruct (f x) as [e|y]; simpl; [reflexivity|].
    rewrite IH. destruct (mapM f xs) as [e|ys]; simpl; [reflexivity|].
    destruct (mapM f l2); reflexivity.
Qed.

(** Either every date has an event and what is left is the two passes over
    the diameters of the pairs, or a date has none and the loop has raised. *)
Lemma transform_data_cases (report : RawFeed) :
  (Forall (fun day => pairs_of (snd day) <> []) report /\
   transform_data report
   = (mins <- mapM (extreme_of "estimated_diameter_min") (flat_rows report) ;;
      maxs <- mapM (extreme_of "estimated_diameter_max") (flat_rows report) ;;
      ret (flat_frame (flat_rows report) mins maxs)))
  \/ (Exists (fun day => pairs_of (snd day) = []) report /\
      exists c, transform_data report = inl (KeyError c)).
Proof.
  destruct (transform_days_cases report []) as [[Hall Hok]|[Hex (c & Hko)]].
  - left. split; [exact Hall|]. exact (transform_data_after_loop report _ Hok).
  - right. split; [exact Hex|]. exists c.
    now apply transform_data_loop_raises.
Qed.

(** What a returned frame is. *)
Lemma transform_data_inr (report : RawFeed) (df : DataFrame) :
  transform_data report = inr df ->
  Forall (fun day => pairs_of (snd day) <> []) report /\
  exists mins maxs,
    mapM (extreme_of "estimated_diameter_min") (flat_rows report) = inr mins /\
    mapM (extreme_of "estimated_diameter_max") (flat_rows report) = inr maxs /\
    df = flat_frame (flat_rows report) mins maxs.
Proof.
  intros H.
  destruct (transform_data_cases report) as [[Hall Heq]|[_ (c & Hko)]];
    [|congruence].
  split; [exact Hall|]. rewrite Heq in H.
  destruct (mapM (extreme_of "estimated_diameter_min") (flat_rows report))
    as [e|mins]; [discriminate|].
  destruct (mapM (extreme_of "estimated_diameter_max") (flat_rows report))
    as [e|maxs]; [discriminate|].
  injection H as <-. now exists mins, maxs.
Qed.

(** X1.  Every frame that [transform_data] returns is rectangular: its
    labels are the eight of the CSV header, in that order, and each of its
    columns has one cell per close-approach event of the feed. *)
Theorem transform_data_frame_shape (report : RawFeed) (df : DataFrame) :
  transform_data report = inr df ->
  map fst df
  = ["id"; "name"; "is_potentially_hazardous_asteroid";
     "estimated_diameter_min_km"; "estimated_diameter_max_km";
     "relative_velocity_km_sec"; "miss_distance_km"; "searching_date"]%string /\
  Forall (fun col => List.length (snd col) = event_count report) df.
Proof.
  intros H.
  destruct (transform_data_inr report df H)
    as (_ & mins & maxs & Hmins & Hmaxs & ->).
  apply mapM_length in Hmins, Hmaxs.
  split; [reflexivity|].
  unfold flat_frame. repeat constructor; simpl;
    rewrite ?length_map, ?Hmins, ?Hmaxs; apply flat_rows_length.
Qed.

Lemma transform_data_frame_shape_witness :
  map fst (flat_frame [(apophis, sample_event)] [VFloat 0.25] [VFloat 0.5])
  = ["id"; "name"; "is_potentially_hazardous_asteroid";
     "estimated_diameter_min_km"; "estimated_diameter_max_km";
     "relative_velocity_km_sec"; "miss_distance_km"; "searching_date"]%string /\
  Forall (fun col => List.length (snd col)
                     = event_count [("2023-01-01"%string, [apophis])])
         (flat_frame [(apophis, sample_event)] [VFloat 0.25] [VFloat 0.5]).
Proof.
  apply (transform_data_frame_shape [("2023-01-01"%string, [apophis])]).
  reflexivity.
Defined.




(** *** Feeds put end to end *)

Lemma flat_rows_app (r1 r2 : RawFeed) :
  flat_rows (r1 ++ r2) = flat_rows r1 ++ flat_rows r2.
Proof. unfold flat_rows. apply flat_map_app. Qed.

Lemma concat_flat_frame (ps qs : list (Neo.t * Cpd.t))
  (mins1 maxs1 mins2 maxs2 : Series) :
  concat (flat_frame ps mins1 maxs1) (flat_frame qs mins2 maxs2)
  = flat_frame (ps ++ qs) (mins1 ++ mins2) (maxs1 ++ maxs2).
Proof.
  unfold flat_frame. rewrite !map_app. reflexivity.
Qed.

(** X4.  Flattening two feeds put end to end returns a frame exactly when
    flattening each of them does, and the frame is then the [pd.concat] of
    the two frames: the rows of the first feed, then those of the second. *)
Theorem transform_data_app (r1 r2 : RawFeed) (df : DataFrame) :
  transform_data (r1 ++ r2) = inr df
  <-> exists df1 df2,
        transform_data r1 = inr df1 /\ transform_data r2 = inr df2 /\
        df = concat df1 df2.
Proof.
  split.
  - intros H. apply transform_data_inr in H
      as (Hall & mins & maxs & Hmins & Hmaxs & ->).
    apply Forall_app in Hall as (Hall1 & Hall2).
    rewrite flat_rows_app in *. rewrite mapM_app in Hmins, Hmaxs.
    destruct (transform_data_cases r1) as [[_ Heq1]|[Hex _]].
    2:{ apply Exists_exists in Hex as (d & Hd & Hnil).
        rewrite Forall_forall in Hall1. now elim (Hall1 d Hd). }
    destruct (transform_data_cases r2) as [[_ Heq2]|[Hex _]].
    2:{ apply Exists_exists in Hex as (d & Hd & Hnil).
        rewrite Forall_forall in Hall2. now elim (Hall2 d Hd). }
    rewrite Heq1, Heq2.
    destruct (mapM (extreme_of "estimated_diameter_min") (flat_rows r1))
      as [e|mins1]; [discriminate|].
    destruct (mapM (extreme_of "estimated_diameter_min") (flat_rows r2))
      as [e|mins2]; [discriminate|].
    destruct (mapM (extreme_of "estimated_diameter_max") (flat_rows r1))
      as [e|maxs1]; [discriminate|].
    destruct (mapM (extreme_of "estimated_diameter_max") (flat_rows r2))
      as [e|maxs2]; [discriminate|].
    simpl in Hmins, Hmaxs. injection Hmins as <-. injection Hmaxs as <-.
    eexists _, _. split; [reflexivity|]. split; [reflexivity|].
    now rewrite concat_flat_frame.
  - intros (df1 & df2 & H1 & H2 & ->).
    apply transform_data_inr in H1
      as (Hall1 & mins1 & maxs1 & Hmins1 & Hmaxs1 & ->).
    apply transform_data_inr in H2
      as (Hall2 & mins2 & maxs2 & Hmins2 & Hmaxs2 & ->).
    destruct (transform_data_cases (r1 ++ r2)) as [[_ Heq]|[Hex _]].
    + rewrite Heq, flat_rows_app, !mapM_app.
      rewrite Hmins1, Hmins2, Hmaxs1, Hmaxs2. simpl.
      now rewrite concat_flat_frame.
    + apply Exists_app in Hex as [Hex|Hex];
        apply Exists_exists in Hex as (d & Hd & Hnil).
      * rewrite Forall_forall in Hall1. now elim (Hall1 d Hd).
      * rewrite Forall_forall in Hall2. now elim (Hall2 d Hd).
Qed.

(** *** What the loop looks at *)

Lemma transform_days_ext (r1 r2 : RawFeed) :
  map (fun day => select normalized_columns (json_normalize (snd day))) r1
  = map (fun day => select normalized_columns (json_normalize (snd day))) r2 ->
  forall df_ovr, transform_days r1 df_ovr = transform_days r2 df_ovr.
Proof.
  revert r2. induction r1 as [|[d1 os1] r1 IH]; intros [|[d2 os2] r2] H acc;
    try discriminate; [reflexivity|].
  simpl in H. injection H as Hsel Hrest. simpl. rewrite Hsel.
  destruct (select normalized_columns (json_normalize os2)) as [e|df];
    [reflexivity|]. simpl. now apply IH.
Qed.

Lemma transform_data_ext (r1 r2 : RawFeed) :
  map (fun day => select normalized_columns (json_normalize (snd day))) r1
  = map (fun day => select normalized_columns (json_normalize (snd day))) r2 ->
  transform_data r1 = transform_data r2.
Proof.
  intros H. unfold transform_data. now rewrite (transform_days_ext r1 r2 H).
Qed.

(** X5.  The date keys of the feed are never read: two feeds with the same
    lists of asteroids in the same order flatten alike, whatever their keys
    (the column [searching_date] comes from the events). *)
Theorem transform_data_ignores_keys (r1 r2 : RawFeed) :
  map snd r1 = map snd r2 -> transform_data r1 = transform_data r2.
Proof.
  intros H. apply transform_data_ext.
  rewrite <- (map_map snd
                (fun os => select normalized_columns (json_normalize os)) r1).
  rewrite <- (map_map snd
                (fun os => select normalized_columns (json_normalize os)) r2).
  now rewrite H.
Qed.

Lemma transform_data_ignores_keys_witness :
  transform_data [("2023-01-01"%string, [apophis])]
  = transform_data [("1999-12-31"%string, [apophis])].
Proof.
  apply (transform_data_ignores_keys [("2023-01-01"%string, [apophis])]
                                     [("1999-12-31"%string, [apophis])]).
  reflexivity.
Defined.

Lemma pairs_of_app (l1 l2 : list Neo.t) :
  pairs_of (l1 ++ l2) = pairs_of l1 ++ pairs_of l2.
Proof. unfold pairs_of. apply flat_map_app. Qed.

(** X6.  An asteroid without close-approach events leaves no trace: put
    anywhere into a date that has events, whatever stands in its other
    entries, it changes neither the frame nor the exception of
    [transform_data]. *)
Theorem transform_data_ignores_eventless
  (before after : RawFeed) (day : string) (l1 l2 : list Neo.t) (o : Neo.t) :
  Neo.close_approach_data o = [] ->
  pairs_of (l1 ++ l2) <> [] ->
  transform_data (before ++ (day, l1 ++ o :: l2) :: after)
  = transform_data (before ++ (day, l1 ++ l2) :: after).
Proof.
  intros Ho Hne. apply transform_data_ext.
  rewrite !map_app. simpl. f_equal. f_equal.
  assert (Hp : pairs_of (l1 ++ o :: l2) = pairs_of (l1 ++ l2)).
  { rewrite !pairs_of_app. f_equal. unfold pairs_of. simpl. now rewrite Ho. }
  rewrite !select_json_normalize by (rewrite ?Hp; exact Hne).
  now rewrite Hp.
Qed.

Lemma transform_data_ignores_eventless_witness :
  transform_data
    ([] ++ ("2023-01-01"%string, [apophis] ++ bennu_meters_no_event :: []) :: [])
  = transform_data ([] ++ ("2023-01-01"%string, [apophis] ++ []) :: []).
Proof.
  apply (transform_data_ignores_eventless
           [] [] "2023-01-01"%string [apophis] [] bennu_meters_no_event).
  - reflexivity.
  - discriminate.
Defined.

(** X16.  A date none of whose asteroids has a close-approach event stops
    [transform_data] with a [KeyError], before any diameter is read: its
    frame lacks the event columns that lines 51-61 select. *)
Theorem transform_data_eventless_date
  (report : RawFeed) (day : string) (asteroids : list Neo.t) :
  In (day, asteroids) report ->
  (forall o, In o asteroids -> Neo.close_approach_data o = []) ->
  exists c, transform_data report = inl (KeyError c).
Proof.
  intros Hday Hnone.
  destruct (transform_data_cases report) as [[Hall _]|[_ Hko]];
    [|exact Hko].
  rewrite Forall_forall in Hall. elim (Hall _ Hday). simpl.
  now apply pairs_of_nil.
Qed.

Lemma transform_data_eventless_date_witness :
  exists c,
    transform_data [("2023-01-01"%string, [apophis]);
                    ("2023-01-02"%string, [bennu_meters_no_event])]
    = inl (KeyError c).
Proof.
  apply (transform_data_eventless_date
           [("2023-01-01"%string, [apophis]);
            ("2023-01-02"%string, [bennu_meters_no_event])]
           "2023-01-02"%string [bennu_meters_no_event]).
  - right. now left.
  - intros o [<-|[]]. reflexivity.
Defined.

(** ** The order of the floats *)

Lemma SFltb_irrefl (a : spec_float) : SFltb a a = false.
Proof. unfold SFltb, SFcompare. destruct a; try reflexivity; sf_order. Qed.

Lemma SFeqb_refl (a : spec_float) : a <> S754_nan -> SFeqb a a = true.
Proof.
  unfold SFeqb, SFcompare. intros Ha.
  destruct a; try reflexivity; try congruence; sf_order.
Qed.

Lemma SFltb_asym (a b : spec_float) : SFltb a b = true -> SFltb b a = false.
Proof.
  unfold SFltb, SFcompare.
  destruct a, b; try reflexivity; try discriminate; sf_order.
Qed.

Lemma SFnlt_trans (a b c : spec_float) :
  b <> S754_nan -> SFltb a b = false -> SFltb b c = false -> SFltb a c = false.
Proof.
  unfold SFltb, SFcompare. intros Hb.
  destruct a, b, c; try reflexivity; try discriminate; try congruence;
    sf_order.
Qed.

Lemma SFeqb_ltb_l (a b c : spec_float) :
  SFeqb a b = true -> SFltb a c = SFltb b c.
Proof.
  unfold SFeqb, SFltb, SFcompare.
  destruct a, b, c; try reflexivity; try discriminate; sf_order.
Qed.

Lemma SFeqb_ltb_r (a b c : spec_float) :
  SFeqb a b = true -> SFltb c a = SFltb c b.
Proof.
  unfold SFeqb, SFltb, SFcompare.
  destruct a, b, c; try reflexivity; try discriminate; sf_order.
Qed.

Lemma SFltb_total (a b : spec_float) :
  a <> S754_nan -> b <> S754_nan ->
  SFeqb a b = false -> SFltb b a = false -> SFltb a b = true.
Proof.
  unfold SFeqb, SFltb, SFcompare. intros Ha Hb.
  destruct a, b; try reflexivity; try discriminate; try congruence; sf_order.
Qed.

Lemma is_nan_false (x : float) : is_nan x = false -> Prim2SF x <> S754_nan.
Proof.
  unfold is_nan. rewrite eqb_spec. intros H Hnan. rewrite Hnan in H.
  discriminate.
Qed.

Lemma is_nan_true (x : float) : is_nan x = true -> Prim2SF x = S754_nan.
Proof.
  unfold is_nan. rewrite eqb_spec. intros H.
  destruct (Prim2SF x) eqn:Hx; try reflexivity;
    rewrite SFeqb_refl in H by discriminate; discriminate.
Qed.

Lemma eqb_refl (x : float) : is_nan x = false -> (x =? x)%float = true.
Proof. unfold is_nan. now destruct (x =? x)%float. Qed.

Lemma eqb_not_nan (x y : float) : (x =? y)%float = true -> is_nan x = false.
Proof.
  intros H. destruct (is_nan x) eqn:Hx; [|reflexivity].
  rewrite eqb_spec, (is_nan_true x Hx) in H. discriminate.
Qed.

Lemma eqb_nan_r (x y : float) : is_nan y = true -> (x =? y)%float = false.
Proof.
  intros Hy. rewrite eqb_spec, (is_nan_true y Hy).
  unfold SFeqb, SFcompare. now destruct (Prim2SF x).
Qed.

Lemma ltb_nan_r (x y : float) : is_nan y = true -> (x <? y)%float = false.
Proof.
  intros Hy. rewrite ltb_spec, (is_nan_true y Hy).
  unfold SFltb, SFcompare. now destruct (Prim2SF x).
Qed.

Lemma ltb_nan_l (x y : float) : is_nan x = true -> (x <? y)%float = false.
Proof.
  intros Hx. rewrite ltb_spec, (is_nan_true x Hx). reflexivity.
Qed.

Lemma ltb_irrefl (x : float) : (x <? x)%float = false.
Proof. rewrite ltb_spec. apply SFltb_irrefl. Qed.

Lemma ltb_asym (x y : float) : (x <? y)%float = true -> (y <? x)%float = false.
Proof. rewrite !ltb_spec. apply SFltb_asym. Qed.

Lemma nlt_trans (x y z : float) :
  is_nan y = false ->
  (x <? y)%float = false -> (y <? z)%float = false -> (x <? z)%float = false.
Proof.
  intros Hy. rewrite !ltb_spec. apply SFnlt_trans. now apply is_nan_false.
Qed.

Lemma eqb_ltb_l (x y z : float) :
  (x =? y)%float = true -> (x <? z)%float = (y <? z)%float.
Proof. rewrite eqb_spec, !ltb_spec. apply SFeqb_ltb_l. Qed.

Lemma eqb_ltb_r (x y z : float) :
  (x =? y)%float = true -> (z <? x)%float = (z <? y)%float.
Proof. rewrite eqb_spec, !ltb_spec. apply SFeqb_ltb_r. Qed.

Lemma ltb_total (x y : float) :
  is_nan x = false -> is_nan y = false ->
  (x =? y)%float = false -> (y <? x)%float = false -> (x <? y)%float = true.
Proof.
  intros Hx Hy. rewrite eqb_spec, !ltb_spec.
  apply SFltb_total; now apply is_nan_false.
Qed.

(** ** Series.max() and Series.min() *)

Lemma fold_fmax_in (xs : list float) (x : float) :
  In (fold_left fmax xs x) (x :: xs).
Proof.
  revert x. induction xs as [|y ys IH]; intros x; simpl.
  - now left.
  - destruct (IH (fmax x y)) as [H|H]; [|now right; right].
    rewrite <- H. unfold fmax. destruct (x <? y)%float; [right|]; now left.
Qed.

Lemma fold_fmax_upper (xs : list float) (x : float) :
  (forall y, In y (x :: xs) -> is_nan y = false) ->
  forall y, In y (x :: xs) -> (fold_left fmax xs x <? y)%float = false.
Proof.
  revert x. induction xs as [|y0 ys IH]; intros x Hnan y Hy.
  - destruct Hy as [<-|[]]. apply ltb_irrefl.
  - simpl fold_left.
    assert (Hx' : is_nan (fmax x y0) = false).
    { unfold fmax. destruct (x <? y0)%float; apply Hnan; simpl; auto. }
    assert (Hall : forall z, In z (fmax x y0 :: ys) -> is_nan z = false).
    { intros z [<-|Hz]; [exact Hx' | apply Hnan; simpl; auto]. }
    assert (Hle : (fmax x y0 <? x)%float = false
                  /\ (fmax x y0 <? y0)%float = false).
    { unfold fmax. destruct (x <? y0)%float eqn:Hlt.
      - split; [now apply ltb_asym | apply ltb_irrefl].
      - split; [apply ltb_irrefl | exact Hlt]. }
    destruct Hy as [<-|[<-|Hy]].
    + apply nlt_trans with (fmax x y0); [exact Hx' | | apply Hle].
      apply IH; [exact Hall | now left].
    + apply nlt_trans with (fmax x y0); [exact Hx' | | apply Hle].
      apply IH; [exact Hall | now left].
    + apply IH; [exact Hall | now right].
Qed.

Lemma fold_fmin_lower (xs : list float) (x : float) :
  (forall y, In y (x :: xs) -> is_nan y = false) ->
  forall y, In y (x :: xs) -> (y <? fold_left fmin xs x)%float = false.
Proof.
  revert x. induction xs as [|y0 ys IH]; intros x Hnan y Hy.
  - destruct Hy as [<-|[]]. apply ltb_irrefl.
  - simpl fold_left.
    assert (Hx' : is_nan (fmin x y0) = false).
    { unfold fmin. destruct (y0 <? x)%float; apply Hnan; simpl; auto. }
    assert (Hall : forall z, In z (fmin x y0 :: ys) -> is_nan z = false).
    { intros z [<-|Hz]; [exact Hx' | apply Hnan; simpl; auto]. }
    assert (Hle : (x <? fmin x y0)%float = false
                  /\ (y0 <? fmin x y0)%float = false).
    { unfold fmin. destruct (y0 <? x)%float eqn:Hlt.
      - split; [now apply ltb_asym | apply ltb_irrefl].
      - split; [apply ltb_irrefl | exact Hlt]. }
    destruct Hy as [<-|[<-|Hy]].
    + apply nlt_trans with (fmin x y0); [exact Hx' | apply Hle |].
      apply IH; [exact Hall | now left].
    + apply nlt_trans with (fmin x y0); [exact Hx' | apply Hle |].
      apply IH; [exact Hall | now left].
    + apply IH; [exact Hall | now right].
Qed.

(** The maximum of a column with a cell that is not NaN: a cell of the
    column, not NaN, that no cell exceeds. *)
Lemma series_max_spec (s : list float) (x : float) :
  In x s -> is_nan x = false ->
  In (series_max s) s /\ is_nan (series_max s) = false /\
  forall y, In y s -> (series_max s <? y)%float = false.
Proof.
  intros Hx Hnan. unfold series_max.
  destruct (filter (fun x => negb (is_nan x)) s) as [|x0 xs] eqn:Hf.
  - assert (Hin : In x (filter (fun x => negb (is_nan x)) s))
      by (apply filter_In; split; [exact Hx | now rewrite Hnan]).
    rewrite Hf in Hin. contradiction.
  - assert (Hall : forall y, In y (x0 :: xs) -> is_nan y = false).
    { intros y Hy. rewrite <- Hf in Hy. apply filter_In in Hy as [_ Hy].
      now apply negb_true_iff in Hy. }
    pose proof (fold_fmax_in xs x0) as Hin.
    split; [|split].
    + rewrite <- Hf in Hin. now apply filter_In in Hin.
    + now apply Hall.
    + intros y Hy. destruct (is_nan y) eqn:Hyn; [now apply ltb_nan_r|].
      apply fold_fmax_upper; [exact Hall|]. rewrite <- Hf.
      apply filter_In. split; [exact Hy | now rewrite Hyn].
Qed.

Lemma series_max_all_nan (s : list float) :
  (forall x, In x s -> is_nan x = true) -> series_max s = nan.
Proof.
  intros Hall. unfold series_max.
  destruct (filter (fun x => negb (is_nan x)) s) as [|x0 xs] eqn:Hf;
    [reflexivity|].
  assert (Hin : In x0 (filter (fun x => negb (is_nan x)) s))
    by (rewrite Hf; now left).
  apply filter_In in Hin as [Hin Hn]. rewrite (Hall x0 Hin) in Hn.
  discriminate.
Qed.

(** The minimum of a column, when it is not NaN: a cell of the column below
    which no cell lies. *)
Lemma series_min_spec (s : list float) :
  is_nan (series_min s) = false ->
  In (series_min s) s /\
  forall y, In y s -> (y <? series_min s)%float = false.
Proof.
  unfold series_min.
  destruct (filter (fun x => negb (is_nan x)) s) as [|x0 xs] eqn:Hf;
    [discriminate|]. intros _.
  assert (Hall : forall y, In y (x0 :: xs) -> is_nan y = false).
  { intros y Hy. rewrite <- Hf in Hy. apply filter_In in Hy as [_ Hy].
    now apply negb_true_iff in Hy. }
  pose proof (fold_fmin_in xs x0) as Hin. split.
  - rewrite <- Hf in Hin. now apply filter_In in Hin.
  - intros y Hy. destruct (is_nan y) eqn:Hyn; [now apply ltb_nan_l|].
    apply fold_fmin_lower; [exact Hall|]. rewrite <- Hf.
    apply filter_In. split; [exact Hy | now rewrite Hyn].
Qed.

(** ** make_dict on every row-set *)

Lemma filter_first {A} (p : A -> bool) (l : list A) (r : A) (rest : list A) :
  filter p l = r :: rest ->
  exists before after,
    l = before ++ r :: after /\ p r = true /\
    forall x, In x before -> p x = false.
Proof.
  induction l as [|a l IH]; simpl; [discriminate|].
  destruct (p a) eqn:Ha; intros H.
  - injection H as -> _. exists [], l. repeat split; [exact Ha|].
    intros x [].
  - destruct (IH H) as (before & after & -> & Hr & Hbefore).
    exists (a :: before), after. repeat split; [exact Hr|].
    intros x [<-|Hx]; [exact Ha | now apply Hbefore].
Qed.

Lemma filter_none {A} (p : A -> bool) (l : list A) :
  (forall x, In x l -> p x = false) -> filter p l = [].
Proof.
  induction l as [|a l IH]; intros H; simpl; [reflexivity|].
  rewrite (H a (or_introl eq_refl)). apply IH. intros x Hx. apply H.
  now right.
Qed.

Lemma py_round_nan (x : float) : is_nan x = true -> py_round x = inl ValueError.
Proof. intros H. unfold py_round. now rewrite (is_nan_true x H). Qed.

Lemma py_round_inr (x : float) (h : Z) : py_round x = inr h -> is_nan x = false.
Proof.
  intros H. destruct (is_nan x) eqn:Hx; [|reflexivity].
  rewrite (py_round_nan x Hx) in H. discriminate.
Qed.

Lemma py_round_raises (x : float) (e : exn) :
  py_round x = inl e -> e = OverflowError \/ e = ValueError.
Proof.
  unfold py_round. destruct (Prim2SF x); simpl; intros H;
    try discriminate; injection H as <-; auto.
Qed.

(** Without a diameter that is not NaN, line 98 finds no row. *)
Lemma make_dict_no_diameter (df : list Row.t) :
  (forall r, In r df -> is_nan (Row.estimated_diameter_max_km r) = true) ->
  make_dict df = inl IndexError.
Proof.
  intros Hall. unfold make_dict.
  rewrite series_max_all_nan
    by (intros x Hx; apply in_map_iff in Hx as (r & <- & Hr); now apply Hall).
  rewrite filter_none; [reflexivity|].
  intros r _. now apply eqb_nan_r.
Qed.

(** X7.  [make_dict] fails with [IndexError] exactly on the row-sets
    without a maximal diameter to look up: the empty one, and those whose
    every [estimated_diameter_max_km] is NaN. *)
Theorem make_dict_index_error_iff (df : list Row.t) :
  make_dict df = inl IndexError
  <-> forall r, In r df -> is_nan (Row.estimated_diameter_max_km r) = true.
Proof.
  unfold make_dict. split.
  - intros H r Hr.
    destruct (is_nan (Row.estimated_diameter_max_km r)) eqn:Hnan;
      [reflexivity|].
    destruct (series_max_spec (map Row.estimated_diameter_max_km df)
                (Row.estimated_diameter_max_km r))
      as (Hin & Hm & _); [now apply in_map | exact Hnan |].
    apply in_map_iff in Hin as (r0 & Hr0 & Hin0).
    assert (Hf : In r0 (filter
                          (fun r => (Row.estimated_diameter_max_km r
                                     =? series_max
                                          (map Row.estimated_diameter_max_km df))%float)
                          df)).
    { apply filter_In. split; [exact Hin0|]. rewrite Hr0.
      now apply eqb_refl. }
    destruct (filter _ df) as [|r1 rest]; [contradiction|]. simpl in H.
    destruct (py_round (series_min (collision_column 360 df))) as [e|h] eqn:Hp;
      simpl in H; [|discriminate].
    injection H as ->. apply py_round_raises in Hp as [Hp|Hp]; discriminate.
  - fold (make_dict df). apply make_dict_no_diameter.
Qed.

(** X8.  When [make_dict] returns a report, its name is that of a row
    whose maximal diameter no row exceeds, and of the first such row: every
    row before it has a smaller maximal diameter, or NaN for one. *)
Theorem make_dict_name_of_largest (df : list Row.t) (report : report_dict) :
  make_dict df = inr report ->
  exists before r after,
    df = before ++ r :: after /\
    name_with_max_estimated_diam report = Row.name r /\
    is_nan (Row.estimated_diameter_max_km r) = false /\
    (forall r', In r' df ->
       (Row.estimated_diameter_max_km r
        <? Row.estimated_diameter_max_km r')%float = false) /\
    (forall r', In r' before ->
       is_nan (Row.estimated_diameter_max_km r') = true \/
       (Row.estimated_diameter_max_km r'
        <? Row.estimated_diameter_max_km r)%float = true).
Proof.
  unfold make_dict.
  set (m := series_max (map Row.estimated_diameter_max_km df)).
  destruct (filter (fun r => (Row.estimated_diameter_max_km r =? m)%float) df)
    as [|r rest] eqn:Hf; simpl; [discriminate|].
  destruct (py_round (series_min (collision_column 360 df))) as [e|h];
    simpl; [discriminate|].
  intros H. injection H as <-. simpl.
  destruct (filter_first _ _ _ _ Hf) as (before & after & Hdf & Hr & Hbefore).
  exists before, r, after. split; [exact Hdf|]. split; [reflexivity|].
  pose proof (eqb_not_nan _ _ Hr) as Hrn. split; [exact Hrn|].
  assert (Hrin : In r df) by (rewrite Hdf; apply in_elt).
  destruct (series_max_spec (map Row.estimated_diameter_max_km df)
              (Row.estimated_diameter_max_km r))
    as (_ & Hmn & Hupper); [now apply in_map | exact Hrn |].
  fold m in Hmn, Hupper. split.
  - intros r' Hr'. rewrite (eqb_ltb_l _ _ _ Hr). apply Hupper.
    now apply in_map.
  - intros r' Hr'.
    destruct (is_nan (Row.estimated_diameter_max_km r')) eqn:Hn;
      [now left | right].
    rewrite (eqb_ltb_r _ _ _ Hr).
    apply ltb_total; [exact Hn | exact Hmn | now apply Hbefore |].
    apply Hupper. apply in_map. rewrite Hdf. apply in_or_app. now left.
Qed.

Lemma make_dict_name_of_largest_witness :
  exists before r after,
    [row_bennu "2101955" 0.25; row_apophis "2099942" 0.25]
    = before ++ r :: after /\
    "Apophis"%string = Row.name r /\
    is_nan (Row.estimated_diameter_max_km r) = false /\
    (forall r', In r' [row_bennu "2101955" 0.25; row_apophis "2099942" 0.25] ->
       (Row.estimated_diameter_max_km r
        <? Row.estimated_diameter_max_km r')%float = false) /\
    (forall r', In r' before ->
       is_nan (Row.estimated_diameter_max_km r') = true \/
       (Row.estimated_diameter_max_km r'
        <? Row.estimated_diameter_max_km r)%float = true).
Proof.
  apply (make_dict_name_of_largest
           [row_bennu "2101955" 0.25; row_apophis "2099942" 0.25]
           {| potentially_hazardous_count := 1;
              name_with_max_estimated_diam := "Apophis";
              min_collision_hours := 0 |}).
  reflexivity.
Defined.

(** X9.  When [make_dict] returns a report, its hours are the rounded
    quotient of a row below whose quotient no row's lies. *)
Theorem make_dict_hours_of_nearest (df : list Row.t) (report : report_dict) :
  make_dict df = inr report ->
  exists r,
    In r df /\
    py_round (Row.miss_distance_km r / Row.relative_velocity_km_sec r / 360)
    = inr (min_collision_hours report) /\
    forall r', In r' df ->
      (Row.miss_distance_km r' / Row.relative_velocity_km_sec r' / 360
       <? Row.miss_distance_km r / Row.relative_velocity_km_sec r / 360)%float
      = false.
Proof.
  unfold make_dict.
  destruct (iloc0 _) as [e|r0]; simpl; [discriminate|].
  destruct (py_round (series_min (collision_column 360 df))) as [e|h] eqn:Hp;
    simpl; [discriminate|].
  intros H. injection H as <-. simpl.
  destruct (series_min_spec (collision_column 360 df) (py_round_inr _ _ Hp))
    as (Hin & Hlower).
  apply in_map_iff in Hin as (r & Hq & Hr).
  exists r. split; [exact Hr|]. rewrite Hq. split; [exact Hp|].
  intros r' Hr'. apply Hlower. unfold collision_column.
  now apply (in_map (fun r => (Row.miss_distance_km r
                               / Row.relative_velocity_km_sec r / 360)%float)).
Qed.

Lemma make_dict_hours_of_nearest_witness :
  exists r,
    In r [row_bennu "2101955" 0.25; row_apophis "2099942" 0.25] /\
    py_round (Row.miss_distance_km r / Row.relative_velocity_km_sec r / 360)
    = inr 0%Z /\
    forall r', In r' [row_bennu "2101955" 0.25; row_apophis "2099942" 0.25] ->
      (Row.miss_distance_km r' / Row.relative_velocity_km_sec r' / 360
       <? Row.miss_distance_km r / Row.relative_velocity_km_sec r / 360)%float
      = false.
Proof.
  apply (make_dict_hours_of_nearest
           [row_bennu "2101955" 0.25; row_apophis "2099942" 0.25]
           {| potentially_hazardous_count := 1;
              name_with_max_estimated_diam := "Apophis";
              min_collision_hours := 0 |}).
  reflexivity.
Defined.

(** X10.  The hazardous count of a report counts rows: it lies between zero
    and the number of rows, and is zero exactly when no row is flagged. *)
Theorem make_dict_hazard_count (df : list Row.t) (report : report_dict) :
  make_dict df = inr report ->
  (0 <= potentially_hazardous_count report <= Z.of_nat (List.length df))%Z /\
  (potentially_hazardous_count report = 0%Z
   <-> forall r, In r df -> Row.is_potentially_hazardous_asteroid r = false).
Proof.
  unfold make_dict.
  destruct (iloc0 _) as [e|r0]; simpl; [discriminate|].
  destruct (py_round _) as [e|h]; simpl; [discriminate|].
  intros H. injection H as <-. simpl.
  set (p := fun r => Bool.eqb (Row.is_potentially_hazardous_asteroid r) true).
  split.
  - pose proof (filter_length_le p df). lia.
  - split.
    + intros Hz r Hr.
      destruct (Row.is_potentially_hazardous_asteroid r) eqn:Hflag;
        [|reflexivity].
      assert (Hin : In r (filter p df))
        by (apply filter_In; split; [exact Hr | unfold p; now rewrite Hflag]).
      destruct (filter p df); [contradiction | simpl in Hz; lia].
    + intros Hall. rewrite filter_none; [reflexivity|].
      intros r Hr. unfold p. now rewrite (Hall r Hr).
Qed.

Lemma make_dict_hazard_count_witness :
  (0 <= 1 <= Z.of_nat (List.length [row_bennu "2101955" 0.25;
                                    row_apophis "2099942" 0.25]))%Z /\
  (1%Z = 0%Z
   <-> forall r, In r [row_bennu "2101955" 0.25; row_apophis "2099942" 0.25] ->
                 Row.is_potentially_hazardous_asteroid r = false).
Proof.
  apply (make_dict_hazard_count
           [row_bennu "2101955" 0.25; row_apophis "2099942" 0.25]
           {| potentially_hazardous_count := 1;
              name_with_max_estimated_diam := "Apophis";
              min_collision_hours := 0 |}).
  reflexivity.
Defined.

(** X11.  On a single row [make_dict] fails with [IndexError] if the
    maximal diameter of the row is NaN; otherwise it rounds the quotient of
    the row and, unless the rounding raises, reports the row's name, one or
    zero hazardous rows as the row is flagged or not, and the rounded
    hours. *)
Theorem make_dict_single_row (r : Row.t) :
  make_dict [r]
  = if is_nan (Row.estimated_diameter_max_km r) then inl IndexError
    else
      hours <- py_round (Row.miss_distance_km r
                         / Row.relative_velocity_km_sec r / 360) ;;
      ret {| potentially_hazardous_count :=
               if Row.is_potentially_hazardous_asteroid r then 1 else 0;
             name_with_max_estimated_diam := Row.name r;
             min_collision_hours := hours |}.
Proof.
  destruct (is_nan (Row.estimated_diameter_max_km r)) eqn:Hnan.
  - apply make_dict_no_diameter. now intros r' [<-|[]].
  - unfold make_dict, series_max, series_min, collision_column. simpl.
    rewrite Hnan. simpl. rewrite (eqb_refl _ Hnan). simpl.
    destruct (is_nan (Row.miss_distance_km r
                      / Row.relative_velocity_km_sec r / 360)) eqn:Hq; simpl.
    + rewrite (py_round_nan _ Hq). reflexivity.
    + destruct (py_round _); simpl; [reflexivity|].
      now destruct (Row.is_potentially_hazardous_asteroid r).
Qed.

Lemma filter_map_commute {A B} (g : A -> B) (p : B -> bool) (l : list A) :
  filter p (map g l) = map g (filter (fun x => p (g x)) l).
Proof.
  induction l as [|a l IH]; simpl; [reflexivity|].
  destruct (p (g a)); simpl; now rewrite IH.
Qed.

(** X12.  [make_dict] reads the name, the hazard flag, the maximal
    diameter, the velocity and the miss distance of a row and nothing else:
    rewriting the rows in any way that keeps these five cells changes
    neither the report nor the exception. *)
Theorem make_dict_reads_five_columns (g : Row.t -> Row.t) (df : list Row.t) :
  (forall r,
     Row.name (g r) = Row.name r /\
     Row.is_potentially_hazardous_asteroid (g r)
     = Row.is_potentially_hazardous_asteroid r /\
     Row.estimated_diameter_max_km (g r) = Row.estimated_diameter_max_km r /\
     Row.relative_velocity_km_sec (g r) = Row.relative_velocity_km_sec r /\
     Row.miss_distance_km (g r) = Row.miss_distance_km r) ->
  make_dict (map g df) = make_dict df.
Proof.
  intros Hg. unfold make_dict, collision_column.
  rewrite !map_map, !filter_map_commute, length_map.
  rewrite (map_ext (fun r => Row.estimated_diameter_max_km (g r))
                   Row.estimated_diameter_max_km)
    by (intros r; apply Hg).
  rewrite (map_ext
             (fun r => (Row.miss_distance_km (g r)
                        / Row.relative_velocity_km_sec (g r) / 360)%float)
             (fun r => (Row.miss_distance_km r
                        / Row.relative_velocity_km_sec r / 360)%float)).
  2:{ intros r. destruct (Hg r) as (_ & _ & _ & -> & ->). reflexivity. }
  rewrite (filter_ext
             (fun r => Bool.eqb (Row.is_potentially_hazardous_asteroid (g r)) true)
             (fun r => Bool.eqb (Row.is_potentially_hazardous_asteroid r) true))
    by (intros r; destruct (Hg r) as (_ & -> & _); reflexivity).
  set (m := series_max (map Row.estimated_diameter_max_km df)).
  rewrite (filter_ext
             (fun r => (Row.estimated_diameter_max_km (g r) =? m)%float)
             (fun r => (Row.estimated_diameter_max_km r =? m)%float))
    by (intros r; destruct (Hg r) as (_ & _ & -> & _); reflexivity).
  destruct (filter (fun r => (Row.estimated_diameter_max_km r =? m)%float) df)
    as [|r rest]; simpl; [reflexivity|].
  destruct (Hg r) as (-> & _). reflexivity.
Qed.

Lemma make_dict_reads_five_columns_witness :
  make_dict
    (map (fun r => Row.mk "0" (Row.name r)
                          (Row.is_potentially_hazardous_asteroid r) 0
                          (Row.estimated_diameter_max_km r)
                          (Row.relative_velocity_km_sec r)
                          (Row.miss_distance_km r) "1970-01-01")
         [row_bennu "2101955" 0.25; row_apophis "2099942" 0.25])
  = make_dict [row_bennu "2101955" 0.25; row_apophis "2099942" 0.25].
Proof.
  apply (make_dict_reads_five_columns
           (fun r => Row.mk "0" (Row.name r)
                            (Row.is_potentially_hazardous_asteroid r) 0
                            (Row.estimated_diameter_max_km r)
                            (Row.relative_velocity_km_sec r)
                            (Row.miss_distance_km r) "1970-01-01")
           [row_bennu "2101955" 0.25; row_apophis "2099942" 0.25]).
  intros r. repeat split; reflexivity.
Defined.

(** ** The head of the main block on every response *)

(** X13.  The head of the main block gets a frame only from a response with
    status 200 whose body has the entry [near_earth_objects]: the frame is
    then the one [transform_data] returns for that feed, and nothing has
    been printed. *)
Theorem main_head_returns (resp : Response) (printed : list string)
  (df : DataFrame) :
  main_head resp = (printed, inr df) ->
  status_code resp = 200%Z /\ printed = [] /\
  exists report,
    assoc "near_earth_objects" (json resp) = Some report /\
    transform_data report = inr df.
Proof.
  unfold main_head, get_response.
  destruct (Z.eqb_spec (status_code resp) 200) as [Hs|Hs].
  - destruct (assoc "near_earth_objects" (json resp)) as [report|];
      simpl; intros H; [|discriminate].
    injection H as <- H. split; [exact Hs|]. split; [reflexivity|].
    now exists report.
  - simpl. discriminate.
Qed.

Lemma main_head_returns_witness :
  status_code {| status_code := 200;
                 json := [("near_earth_objects"%string,
                           [("2023-01-01"%string, [apophis])])] |} = 200%Z /\
  @nil string = [] /\
  exists report,
    assoc "near_earth_objects"
          (json {| status_code := 200;
                   json := [("near_earth_objects"%string,
                             [("2023-01-01"%string, [apophis])])] |})
    = Some report /\
    transform_data report
    = inr (flat_frame [(apophis, sample_event)] [VFloat 0.25] [VFloat 0.5]).
Proof.
  apply (main_head_returns
           {| status_code := 200;
              json := [("near_earth_objects"%string,
                        [("2023-01-01"%string, [apophis])])] |}).
  reflexivity.
Defined.

(** ** The query of get_information on every argument *)

Local Open Scope string_scope.


(** X14.  For a [searching_date] without a quote, the string constant the
    query compares the column with is the argument itself, and the query
    goes on with the comparison of [miss_distance_km] with the second
    argument as it stands. *)
Theorem get_information_query_reads_back
  (searching_date miss_distance_km : string) :
  has_quote searching_date = false ->
  first_string_constant (get_information_query searching_date miss_distance_km)
  = Some (searching_date, " AND miss_distance_km = " ++ miss_distance_km).
Proof.
  intros H. rewrite first_string_constant_query.
  now rewrite string_constant_body_quote_free.
Qed.

Lemma get_information_query_reads_back_witness :
  first_string_constant (get_information_query "2023-01-23" "4.8695064e+07")
  = Some ("2023-01-23", " AND miss_distance_km = " ++ "4.8695064e+07").
Proof.
  apply (get_information_query_reads_back "2023-01-23" "4.8695064e+07").
  reflexivity.
Defined.


